(** * Registration validator of the reservation service (main.py)

    A shallow embedding of [UserCreate] (the pydantic model that validates and
    normalises a registration request), of the two request handlers that build
    it, and of the library behaviour the model declaration relies on:
    [str.replace], the string constraints of a pydantic field and the regular
    expression engine that checks [pattern]. *)

From Stdlib Require Import List NArith Arith Bool String Ascii Lia.
From Stdlib Require Import DecimalString.
Import ListNotations.

Set Implicit Arguments.

(** ** Python strings

    A Python [str] is a sequence of Unicode code points; [len] counts code
    points, and so does the length check of a pydantic field.  A [str] may
    hold a lone surrogate (U+D800 to U+DFFF), which a decoded form field never
    does but a JSON body can, through an escape; such a string is not text
    ([is_text]) and cannot be encoded as UTF-8.  Identifiers of the program
    itself (field names, error types) are kept as plain [string]s. *)

Definition char := N.
Definition str := list char.

Definition len (s : str) : nat := List.length s.

Definition hyphen : char := 45%N.

(** The surrogate code points, U+D800 to U+DFFF. *)
Definition is_surrogate (c : char) : bool := (N.leb 55296 c && N.leb c 57343)%N.

(** A string without surrogates: the strings that [s.encode("utf-8")]
    accepts. *)
Definition is_text (s : str) : bool :=
  List.forallb (fun c => negb (is_surrogate c)) s.

(** Decoding of UTF-8, for the string literals of the program: the source
    file is UTF-8 and several of its literals are Korean text. *)
Fixpoint utf8_decode (bytes : list N) : str :=
  match bytes with
  | [] => []
  | b :: t =>
      if (b <? 192)%N then b :: utf8_decode t
      else if (b <? 224)%N then
        match t with
        | b1 :: t' => ((b - 192) * 64 + (b1 - 128))%N :: utf8_decode t'
        | _ => b :: utf8_decode t
        end
      else if (b <? 240)%N then
        match t with
        | b1 :: b2 :: t' =>
            ((b - 224) * 4096 + (b1 - 128) * 64 + (b2 - 128))%N :: utf8_decode t'
        | _ => b :: utf8_decode t
        end
      else
        match t with
        | b1 :: b2 :: b3 :: t' =>
            ((b - 240) * 262144 + (b1 - 128) * 4096 + (b2 - 128) * 64 + (b3 - 128))%N
            :: utf8_decode t'
        | _ => b :: utf8_decode t
        end
  end.

(** A string literal of the program, as the [str] it denotes. *)
Definition lit (s : string) : str :=
  utf8_decode (List.map N_of_ascii (list_ascii_of_string s)).

(** [str(n)] for a non-negative integer: its decimal digits. *)
Definition str_of_nat (n : nat) : str :=
  lit (NilEmpty.string_of_uint (Nat.to_uint n)).

(** [prefix.startswith]-style test: does [s] begin with [p]? *)
Fixpoint startswith (p s : str) : bool :=
  match p, s with
  | [], _ => true
  | _ :: _, [] => false
  | a :: p', c :: s' => N.eqb a c && startswith p' s'
  end.

(** [replace_from old new skip s]: the left-to-right scan of [str.replace];
    [skip] counts the characters of an occurrence of [old] still to be
    dropped. *)
Fixpoint replace_from (old new : str) (skip : nat) (s : str) : str :=
  match s with
  | [] => []
  | c :: t =>
      match skip with
      | S k => replace_from old new k t
      | O =>
          if startswith old s
          then new ++ replace_from old new (len old - 1) t
          else c :: replace_from old new 0 t
      end
  end.

(** [s.replace(old, new)]: every non-overlapping occurrence of [old], found
    from the left, is replaced by [new]; an empty [old] matches before every
    character and at the end. *)
Definition replace (s old new : str) : str :=
  match old with
  | [] => new ++ List.flat_map (fun c => c :: new) s
  | _ :: _ => replace_from old new 0 s
  end.

(** ** Regular expressions

    The fragment of the pattern syntax that [PHONE_NUMBER_REGEX] is written
    in. *)

Inductive regex : Type :=
| Empty                                      (* the empty pattern *)
| StartText                                  (* ^ *)
| EndText                                    (* $ *)
| Digit                                      (* \d *)
| Lit (c : char)                             (* a literal character *)
| Concat (r1 r2 : regex)                     (* r1 r2 *)
| Repeat (r : regex) (lo hi : nat).          (* r{lo,hi}; r? is r{0,1} *)

(** Where the parser stands in the pattern. *)
Inductive parse_state : Type :=
| Plain                                      (* between two items *)
| Escaped                                    (* after a backslash *)
| Lower (n : option nat)                     (* after {, reading the lower bound *)
| Upper (lo : nat) (n : option nat).         (* after the comma, reading the upper bound *)

Definition digit_value (a : ascii) : option nat :=
  let n := nat_of_ascii a in
  if (48 <=? n) && (n <=? 57) then Some (n - 48) else None.

Definition push_digit (n : option nat) (d : nat) : option nat :=
  match n with
  | Some m => Some (10 * m + d)
  | None => Some d
  end.

(** A quantifier applies to the item before it. *)
Definition quantify (items : list regex) (lo hi : nat) : option (list regex) :=
  match items with
  | r :: items' => if hi <? lo then None else Some (Repeat r lo hi :: items')
  | [] => None
  end.

Definition backslash : ascii := ascii_of_nat 92.

Definition is_meta (a : ascii) : bool :=
  List.existsb (Ascii.eqb a) (list_ascii_of_string "*+.()[]|}").

(** [parse st items p]: reads the pattern [p] from the left; [items] holds the
    items read so far, the last one first.  [None] is a pattern outside the
    fragment. *)
Fixpoint parse (st : parse_state) (items : list regex) (p : list ascii)
    : option (list regex) :=
  match p with
  | [] => match st with Plain => Some items | _ => None end
  | a :: p' =>
      match st with
      | Plain =>
          if Ascii.eqb a "^" then parse Plain (StartText :: items) p'
          else if Ascii.eqb a "$" then parse Plain (EndText :: items) p'
          else if Ascii.eqb a backslash then parse Escaped items p'
          else if Ascii.eqb a "?" then
            match quantify items 0 1 with
            | Some items' => parse Plain items' p'
            | None => None
            end
          else if Ascii.eqb a "{" then parse (Lower None) items p'
          else if is_meta a || (128 <=? nat_of_ascii a) then None
          else parse Plain (Lit (N_of_ascii a) :: items) p'
      | Escaped =>
          if Ascii.eqb a "d" then parse Plain (Digit :: items) p' else None
      | Lower n =>
          match digit_value a, n with
          | Some d, _ => parse (Lower (push_digit n d)) items p'
          | None, Some lo =>
              if Ascii.eqb a "," then parse (Upper lo None) items p'
              else if Ascii.eqb a "}" then
                match quantify items lo lo with
                | Some items' => parse Plain items' p'
                | None => None
                end
              else None
          | None, None => None
          end
      | Upper lo n =>
          match digit_value a, n with
          | Some d, _ => parse (Upper lo (push_digit n d)) items p'
          | None, Some hi =>
              if Ascii.eqb a "}" then
                match quantify items lo hi with
                | Some items' => parse Plain items' p'
                | None => None
                end
              else None
          | None, None => None
          end
      end
  end.

(** The compiled form of a pattern: its items in sequence. *)
Definition compile (p : string) : option regex :=
  match parse Plain [] (list_ascii_of_string p) with
  | Some items => Some (List.fold_left (fun r item => Concat item r) items Empty)
  | None => None
  end.

(** The ASCII decimal digits, which every engine's [\d] contains. *)
Definition is_ascii_digit (c : char) : bool := (N.leb 48 c && N.leb c 57)%N.

(** A larger digit class, with the Arabic-Indic (U+0660..U+0669) and the
    fullwidth (U+FF10..U+FF19) digits next to the ASCII ones. *)
Definition is_sample_unicode_digit (c : char) : bool :=
  is_ascii_digit c
  || (N.leb 1632 c && N.leb c 1641)%N
  || (N.leb 65296 c && N.leb c 65305)%N.

(** ** Validation errors and results *)

Inductive ErrorType : Type :=
| string_too_short (min_length : nat)
| string_too_long (max_length : nat)
| string_pattern_mismatch (pattern : string)
| string_unicode.

(** One entry of [ValidationError.errors()]. *)
Record ErrorDetails : Type := {
  loc : string;
  type : ErrorType
}.

(** The [type] key of an error entry. *)
Definition type_name (e : ErrorType) : string :=
  match e with
  | string_too_short _ => "string_too_short"
  | string_too_long _ => "string_too_long"
  | string_pattern_mismatch _ => "string_pattern_mismatch"
  | string_unicode => "string_unicode"
  end.

(** The [min_length] key of the [ctx] of an error entry, when it has one. *)
Definition ctx_min_length (e : ErrorType) : option nat :=
  match e with
  | string_too_short n => Some n
  | _ => None
  end.

(** A validated [UserCreate] instance. *)
Record UserCreate : Type := {
  phone_number : str;
  name : str
}.

(** Declarative constraints of a [str] field: [Field(min_length=, max_length=,
    pattern=)]. *)
Record StrField : Type := {
  min_length : option nat;
  max_length : option nat;
  pattern : option string
}.

(** Line 23: [PHONE_NUMBER_REGEX]. *)
Definition PHONE_NUMBER_REGEX : string := "^\d{2,4}-?\d{3,4}-?\d{4}$".

(** Lines 33-39: the [phone_number] field. *)
Definition phone_number_field : StrField :=
  {| min_length := None; max_length := None; pattern := Some PHONE_NUMBER_REGEX |}.

(** Lines 40-42: the [name] field. *)
Definition name_field : StrField :=
  {| min_length := Some 2; max_length := Some 50; pattern := None |}.

(** Lines 44-46: [standardize_phone_number]. *)
Definition standardize_phone_number (value : str) : str :=
  replace value (lit "-") (lit "").

(** [UserResponse], lines 49-54. *)
Record UserResponse : Type := {
  response_phone_number : str;
  response_name : str;
  response_message : str
}.

(** The template context that [handle_registration_form] builds on failure
    (the request object apart). *)
Record Context : Type := {
  context_error : str;
  context_phone_number : str;
  context_name : str
}.

Inductive Response : Type :=
| RedirectResponse (url : str) (status_code : nat)
| TemplateResponse (template : string) (context : Context) (status_code : nat)
| IndexError.                                 (* [errors()[0]] on an empty list *)

Definition HTTP_303_SEE_OTHER : nat := 303.
Definition HTTP_422_UNPROCESSABLE_ENTITY : nat := 422.

(** ** The console

    The one piece of state the program writes: the lines printed by the
    handlers.  Handlers are computations over it. *)

Definition Console := list str.

Definition IO (A : Type) : Type := Console -> A * Console.

Definition ret {A : Type} (a : A) : IO A := fun w => (a, w).

Definition bind {A B : Type} (m : IO A) (f : A -> IO B) : IO B :=
  fun w => let (a, w') := m w in f a w'.

Definition print (line : str) : IO unit := fun w => (tt, w ++ [line]).

Notation "m ;; k" := (bind m (fun _ => k)) (at level 61, right associativity).

Section Validator.

(** The character class [\d] of the engine that checks [pattern].  It is
    Unicode-aware (every decimal digit of any script), so it is left open:
    the model and its properties are stated for any class; the properties
    assume of it that its ASCII members are the ten digits 0 to 9. *)
Variable is_digit : char -> bool.

(** *** The matcher

    A backtracking matcher in continuation-passing style: [run r pos s k]
    matches [r] at the front of the remaining input [s], which starts at
    offset [pos] of the haystack, and hands the rest to [k]. Repetition is
    greedy. *)

Definition matcher := nat -> str -> (nat -> str -> bool) -> bool.

Fixpoint at_most (step : matcher) (n : nat) (pos : nat) (s : str)
    (k : nat -> str -> bool) : bool :=
  match n with
  | O => k pos s
  | S n' => step pos s (fun p t => at_most step n' p t k) || k pos s
  end.

Fixpoint exactly (step : matcher) (n : nat) (pos : nat) (s : str)
    (k : nat -> str -> bool) : bool :=
  match n with
  | O => k pos s
  | S n' => step pos s (fun p t => exactly step n' p t k)
  end.

Fixpoint run (r : regex) (pos : nat) (s : str) (k : nat -> str -> bool) : bool :=
  match r with
  | Empty => k pos s
  | StartText => Nat.eqb pos 0 && k pos s
  | EndText => match s with [] => k pos s | _ :: _ => false end
  | Digit => match s with c :: t => is_digit c && k (S pos) t | [] => false end
  | Lit a => match s with c :: t => N.eqb c a && k (S pos) t | [] => false end
  | Concat r1 r2 => run r1 pos s (fun p t => run r2 p t k)
  | Repeat r' lo hi =>
      exactly (run r') lo pos s (fun p t => at_most (run r') (hi - lo) p t k)
  end.

(** [is_match]: an unanchored search, the match may start at any offset of
    the haystack. [^] and [$] hold at the two ends of the haystack only. *)
Definition is_match (r : regex) (s : str) : bool :=
  List.existsb (fun i => run r i (List.skipn i s) (fun _ _ => true))
               (List.seq 0 (S (len s))).

(** *** A constrained [str] field

    The checks run in this order: minimum length, maximum length, pattern.
    The first one that fails is the field's error; the value is passed on
    untouched otherwise (no stripping, no case folding is configured).  A
    pattern outside the fragment of [compile] would already be refused when
    the class is declared; [PHONE_NUMBER_REGEX] is inside it, and a field with
    such a pattern accepts nothing here. *)

Definition check_min_length (f : StrField) (input : str) : option ErrorType :=
  match min_length f with
  | Some n => if len input <? n then Some (string_too_short n) else None
  | None => None
  end.

Definition check_max_length (f : StrField) (input : str) : option ErrorType :=
  match max_length f with
  | Some n => if n <? len input then Some (string_too_long n) else None
  | None => None
  end.

Definition check_pattern (f : StrField) (input : str) : option ErrorType :=
  match pattern f with
  | Some p =>
      match compile p with
      | Some r => if is_match r input then None else Some (string_pattern_mismatch p)
      | None => Some (string_pattern_mismatch p)
      end
  | None => None
  end.

Definition validate_str (f : StrField) (input : str) : str + ErrorType :=
  match check_min_length f input with
  | Some e => inr e
  | None =>
      match check_max_length f input with
      | Some e => inr e
      | None =>
          match check_pattern f input with
          | Some e => inr e
          | None => inl input
          end
      end
  end.

(** A field validator declared with [@field_validator] runs after the field's
    own constraints, and only when they hold. *)
Definition validate_after (f : StrField) (after : str -> str) (input : str)
    : str + ErrorType :=
  match validate_str f input with
  | inl v => inl (after v)
  | inr e => inr e
  end.

(** The errors of one field, tagged with the field's name. *)
Definition line_errors (field : string) (r : str + ErrorType) : list ErrorDetails :=
  match r with
  | inl _ => []
  | inr e => [{| loc := field; type := e |}]
  end.

(** [UserCreate(phone_number=..., name=...)] on two strings that are text:
    the fields are validated in declaration order, every field is validated
    whatever happened to the ones before it, and the errors are collected in
    that order.  [inr errors] is the raised [ValidationError]. *)
Definition UserCreate_init (phone_number_in name_in : str)
    : UserCreate + list ErrorDetails :=
  let p := validate_after phone_number_field standardize_phone_number phone_number_in in
  let n := validate_str name_field name_in in
  match p, n with
  | inl p', inl n' => inl {| phone_number := p'; name := n' |}
  | _, _ => inr (line_errors "phone_number" p ++ line_errors "name" n)
  end.

(** The input step of a [str] field, which comes before every constraint: a
    string that is not text cannot be read as UTF-8 and is refused as
    [string_unicode]; a text is handed to the field's validator. *)
Definition take_str (input : str) (validator : str -> str + ErrorType)
    : str + ErrorType :=
  if is_text input then validator input else inr string_unicode.

(** [UserCreate(phone_number=..., name=...)] on any two strings, as the JSON
    handler's body can hold them: the input step of each field, then
    [UserCreate_init]'s checks. *)
Definition UserCreate_validate (phone_number_in name_in : str)
    : UserCreate + list ErrorDetails :=
  let p := take_str phone_number_in
             (validate_after phone_number_field standardize_phone_number) in
  let n := take_str name_in (validate_str name_field) in
  match p, n with
  | inl p', inl n' => inl {| phone_number := p'; name := n' |}
  | _, _ => inr (line_errors "phone_number" p ++ line_errors "name" n)
  end.

(** Lines 80-127: [handle_registration_form].  [phone_number_in] and
    [name_in] are the two form fields, decoded by the framework and so
    text. *)
Definition handle_registration_form (phone_number_in name_in : str) : IO Response :=
  match UserCreate_init phone_number_in name_in with
  | inl user_data =>
      print (lit "폼을 통해 새로운 사용자 등록 시도: " ++ name user_data
             ++ lit " (" ++ phone_number user_data ++ lit ")") ;;
      let success_message :=
        lit "사용자 '" ++ name user_data ++ lit "'님(" ++ phone_number user_data
        ++ lit ")이 성공적으로 등록되었습니다." in
      ret (RedirectResponse (lit "/register?message=" ++ success_message)
                            HTTP_303_SEE_OTHER)
  | inr e =>
      match e with
      | [] => ret IndexError
      | error_details :: _ =>
          let field := loc error_details in
          let error_message :=
            if String.eqb field "phone_number" then
              lit "전화번호 형식이 올바르지 않습니다. (예: 010-1234-5678)"
            else if String.eqb field "name" then
              if String.eqb (type_name (type error_details)) "string_too_short" then
                lit "이름은 최소 "
                ++ str_of_nat (match ctx_min_length (type error_details) with
                               | Some n => n
                               | None => 2
                               end)
                ++ lit "자 이상이어야 합니다."
              else lit "이름을 확인해주세요."
            else lit "입력값을 확인해주세요." in
          let context :=
            {| context_error := error_message;
               context_phone_number := phone_number_in;
               context_name := name_in |} in
          ret (TemplateResponse "register.html" context HTTP_422_UNPROCESSABLE_ENTITY)
      end
  end.

(** Lines 139-151: [create_user_api], on an already validated [user]. *)
Definition create_user_api (user : UserCreate) : IO UserResponse :=
  print (lit "API를 통해 새로운 사용자 등록 시도: " ++ name user
         ++ lit " (" ++ phone_number user ++ lit ")") ;;
  ret {| response_phone_number := phone_number user;
         response_name := name user;
         response_message :=
           lit "사용자 '" ++ name user ++ lit "'님이 성공적으로 등록되었습니다." |}.

(** *** What a pattern denotes

    [denotes r pos s1 s2]: [r] matches [s1] at offset [pos] of the haystack,
    with [s2] the input that follows [s1]. *)

Fixpoint power (d : nat -> str -> str -> Prop) (n : nat) (pos : nat) (s1 s2 : str)
    : Prop :=
  match n with
  | O => s1 = []
  | S n' =>
      exists a b, s1 = a ++ b /\ d pos a (b ++ s2) /\ power d n' (pos + len a) b s2
  end.

Fixpoint denotes (r : regex) (pos : nat) (s1 s2 : str) : Prop :=
  match r with
  | Empty => s1 = []
  | StartText => s1 = [] /\ pos = 0
  | EndText => s1 = [] /\ s2 = []
  | Digit => exists c, s1 = [c] /\ is_digit c = true
  | Lit a => s1 = [a]
  | Concat r1 r2 =>
      exists a b,
        s1 = a ++ b /\ denotes r1 pos a (b ++ s2) /\ denotes r2 (pos + len a) b s2
  | Repeat r' lo hi =>
      exists n, lo <= n <= lo + (hi - lo) /\ power (denotes r') n pos s1 s2
  end.

(** *** The contract in the words of the specification *)

Definition digits (s : str) : Prop := Forall (fun c => is_digit c = true) s.

Definition optional_hyphen (h : str) : Prop := h = [] \/ h = [hyphen].

(** The pattern as the specification reads it: 2 to 4 digits, 3 to 4 digits
    and 4 digits, with an optional hyphen after the first and after the second
    group, and nothing before or after. *)
Definition phone_pattern (s : str) : Prop :=
  exists g1 h1 g2 h2 g3,
    s = g1 ++ h1 ++ g2 ++ h2 ++ g3
    /\ digits g1 /\ 2 <= len g1 <= 4 /\ optional_hyphen h1
    /\ digits g2 /\ 3 <= len g2 <= 4 /\ optional_hyphen h2
    /\ digits g3 /\ len g3 = 4.

(** The error entries of the specification's taxonomy. *)
Definition phone_number_error : ErrorDetails :=
  {| loc := "phone_number"; type := string_pattern_mismatch PHONE_NUMBER_REGEX |}.

End Validator.

(** A matcher [step] computes the relation [d]. *)
Definition spec_of (step : matcher) (d : nat -> str -> str -> Prop) : Prop :=
  forall pos s k,
    step pos s k = true <->
    exists s1 s2, s = s1 ++ s2 /\ d pos s1 s2 /\ k (pos + len s1) s2 = true.

(** Normalisation in the words of the specification: every hyphen removed. *)
Definition remove_hyphens (s : str) : str :=
  List.filter (fun c => negb (N.eqb c hyphen)) s.

Definition name_too_short : ErrorDetails :=
  {| loc := "name"; type := string_too_short 2 |}.

Definition name_too_long : ErrorDetails :=
  {| loc := "name"; type := string_too_long 50 |}.

(** The entries of a field whose string is not text. *)
Definition phone_number_unicode : ErrorDetails :=
  {| loc := "phone_number"; type := string_unicode |}.

Definition name_unicode : ErrorDetails :=
  {| loc := "name"; type := string_unicode |}.

(** [s.isascii()]: the strings on which every digit class of the properties
    below agrees. *)
Definition isascii (s : str) : bool := List.forallb (fun c => (c <? 128)%N) s.

(** * Properties *)

(** ** The matcher against what a pattern denotes *)

Section MatcherCorrect.

Variable is_digit : char -> bool.

Lemma len_app (a b : str) : len (a ++ b) = len a + len b.
Proof. unfold len. apply List.length_app. Qed.

Lemma exactly_spec step d (Hstep : spec_of step d) n :
  spec_of (exactly step n) (power d n).
Proof.
  induction n as [|n IH]; intros pos s k; simpl.
  - split.
    + intros Hk. exists [], s. simpl. now rewrite Nat.add_0_r.
    + intros (s1 & s2 & -> & -> & Hk). simpl in Hk. now rewrite Nat.add_0_r in Hk.
  - rewrite (Hstep pos s). split.
    + intros (a & rest & -> & Ha & Hrest).
      apply IH in Hrest. destruct Hrest as (b & s2 & -> & Hb & Hk).
      exists (a ++ b), s2. rewrite <- List.app_assoc, len_app, Nat.add_assoc.
      repeat split; trivial. now exists a, b.
    + intros (s1 & s2 & -> & (a & b & -> & Ha & Hb) & Hk).
      exists a, (b ++ s2). rewrite <- List.app_assoc. repeat split; trivial.
      apply IH. exists b, s2. rewrite len_app, Nat.add_assoc in Hk. auto.
Qed.

Lemma at_most_spec step d (Hstep : spec_of step d) n :
  spec_of (at_most step n)
          (fun pos s1 s2 => exists m, m <= n /\ power d m pos s1 s2).
Proof.
  induction n as [|n IH]; intros pos s k; simpl.
  - split.
    + intros Hk. exists [], s. simpl. rewrite Nat.add_0_r.
      repeat split; trivial. now exists 0.
    + intros (s1 & s2 & -> & (m & Hm & Hp) & Hk).
      assert (m = 0) by lia. subst m. simpl in Hp. subst s1.
      simpl in Hk. now rewrite Nat.add_0_r in Hk.
  - rewrite Bool.orb_true_iff, (Hstep pos s). split.
    + intros [(a & rest & -> & Ha & Hrest) | Hk].
      * apply IH in Hrest. destruct Hrest as (b & s2 & -> & (m & Hm & Hb) & Hk).
        exists (a ++ b), s2. rewrite <- List.app_assoc, len_app, Nat.add_assoc.
        repeat split; trivial. exists (S m). split; [lia|]. now exists a, b.
      * exists [], s. simpl. rewrite Nat.add_0_r. repeat split; trivial.
        exists 0. split; [lia | reflexivity].
    + intros (s1 & s2 & -> & (m & Hm & Hp) & Hk). destruct m as [|m].
      * simpl in Hp. subst s1. right. simpl in Hk. now rewrite Nat.add_0_r in Hk.
      * left. destruct Hp as (a & b & -> & Ha & Hb).
        exists a, (b ++ s2). rewrite <- List.app_assoc. repeat split; trivial.
        apply IH. exists b, s2. rewrite len_app, Nat.add_assoc in Hk.
        repeat split; trivial. exists m. split; [lia | trivial].
Qed.

Lemma power_add d n m pos s1 s2 :
  power d (n + m) pos s1 s2 <->
  exists x y, s1 = x ++ y /\ power d n pos x (y ++ s2) /\ power d m (pos + len x) y s2.
Proof.
  revert pos s1. induction n as [|n IH]; intros pos s1; simpl.
  - split.
    + intros H. exists [], s1. simpl. now rewrite Nat.add_0_r.
    + intros (x & y & -> & -> & H). simpl in H. now rewrite Nat.add_0_r in H.
  - split.
    + intros (a & b & -> & Ha & Hb). apply IH in Hb.
      destruct Hb as (x & y & -> & Hx & Hy).
      exists (a ++ x), y. rewrite <- !List.app_assoc, len_app, Nat.add_assoc.
      rewrite <- List.app_assoc in Ha.
      repeat split; trivial. now exists a, x.
    + intros (x & y & -> & (a & b & -> & Ha & Hb) & Hy).
      exists a, (b ++ y). rewrite <- !List.app_assoc in *. repeat split; trivial.
      apply IH. exists b, y. rewrite len_app, Nat.add_assoc in Hy. auto.
Qed.

Lemma run_spec r : spec_of (run is_digit r) (denotes is_digit r).
Proof.
  induction r as [| | | |a|r1 IH1 r2 IH2|r IH lo hi]; intros pos s k; simpl.
  - split.
    + intros Hk. exists [], s. simpl. now rewrite Nat.add_0_r.
    + intros (s1 & s2 & -> & -> & Hk). simpl in Hk. now rewrite Nat.add_0_r in Hk.
  - rewrite Bool.andb_true_iff, Nat.eqb_eq. split.
    + intros [-> Hk]. exists [], s. simpl. auto.
    + intros (s1 & s2 & -> & [-> ->] & Hk). simpl in Hk. auto.
  - destruct s as [|c t].
    + split; [intros Hk | intros (s1 & s2 & E & [-> ->] & Hk)].
      * exists [], []. simpl. now rewrite Nat.add_0_r.
      * simpl in Hk. now rewrite Nat.add_0_r in Hk.
    + split; [discriminate | intros (s1 & s2 & E & [-> ->] & Hk); discriminate].
  - destruct s as [|c t].
    + split; [discriminate|]. intros (s1 & s2 & E & (c & -> & _) & _). discriminate.
    + rewrite Bool.andb_true_iff. split.
      * intros [Hc Hk]. exists [c], t. simpl. rewrite Nat.add_1_r. eauto.
      * intros (s1 & s2 & E & (c' & -> & Hc) & Hk). simpl in E, Hk.
        injection E as -> ->. rewrite Nat.add_1_r in Hk. auto.
  - destruct s as [|c t].
    + split; [discriminate|]. intros (s1 & s2 & E & -> & _). discriminate.
    + rewrite Bool.andb_true_iff, N.eqb_eq. split.
      * intros [-> Hk]. exists [a], t. simpl. rewrite Nat.add_1_r. auto.
      * intros (s1 & s2 & E & -> & Hk). simpl in E, Hk.
        injection E as -> ->. rewrite Nat.add_1_r in Hk. auto.
  - rewrite (IH1 pos s). split.
    + intros (a & rest & -> & Ha & Hrest). apply IH2 in Hrest.
      destruct Hrest as (b & s2 & -> & Hb & Hk).
      exists (a ++ b), s2. rewrite <- List.app_assoc, len_app, Nat.add_assoc.
      repeat split; trivial. now exists a, b.
    + intros (s1 & s2 & -> & (a & b & -> & Ha & Hb) & Hk).
      exists a, (b ++ s2). rewrite <- List.app_assoc. repeat split; trivial.
      apply IH2. exists b, s2. rewrite len_app, Nat.add_assoc in Hk. auto.
  - rewrite (exactly_spec IH lo pos s). split.
    + intros (x & rest & -> & Hx & Hrest).
      apply (at_most_spec IH) in Hrest.
      destruct Hrest as (y & s2 & -> & (m & Hm & Hy) & Hk).
      exists (x ++ y), s2. rewrite <- List.app_assoc, len_app, Nat.add_assoc.
      repeat split; trivial. exists (lo + m). split; [lia|].
      apply power_add. now exists x, y.
    + intros (s1 & s2 & -> & (n & Hn & Hp) & Hk).
      replace n with (lo + (n - lo)) in Hp by lia.
      apply power_add in Hp. destruct Hp as (x & y & -> & Hx & Hy).
      exists x, (y ++ s2). rewrite <- List.app_assoc. repeat split; trivial.
      apply (at_most_spec IH). exists y, s2.
      rewrite len_app, Nat.add_assoc in Hk. repeat split; trivial.
      exists (n - lo). split; [lia | trivial].
Qed.

Lemma is_match_spec r s :
  is_match is_digit r s = true <->
  exists i s1 s2, i <= len s /\ List.skipn i s = s1 ++ s2 /\ denotes is_digit r i s1 s2.
Proof.
  unfold is_match. rewrite List.existsb_exists. split.
  - intros (i & Hi & Hrun). apply List.in_seq in Hi. apply run_spec in Hrun.
    destruct Hrun as (s1 & s2 & E & Hd & _). exists i, s1, s2.
    repeat split; trivial. lia.
  - intros (i & s1 & s2 & Hi & E & Hd). exists i. split.
    + apply List.in_seq. lia.
    + apply run_spec. now exists s1, s2.
Qed.

Lemma power_digit n pos s1 s2 :
  power (denotes is_digit Digit) n pos s1 s2 <-> digits is_digit s1 /\ len s1 = n.
Proof.
  revert pos s1. induction n as [|n IH]; intros pos s1; simpl.
  - split.
    + intros ->. split; [constructor | reflexivity].
    + intros [_ H]. now destruct s1.
  - split.
    + intros (a & b & -> & (c & -> & Hc) & Hb). apply IH in Hb.
      destruct Hb as [Hb <-]. split; [now constructor | reflexivity].
    + intros [Hd Hl]. destruct s1 as [|c t]; [discriminate|].
      inversion Hd; subst. exists [c], t. repeat split; eauto.
      apply IH. split; trivial. simpl in Hl. now injection Hl.
Qed.

Lemma repeat_digit lo hi pos s1 s2 :
  denotes is_digit (Repeat Digit lo hi) pos s1 s2 <->
  digits is_digit s1 /\ lo <= len s1 <= lo + (hi - lo).
Proof.
  simpl. split.
  - intros (n & Hn & Hp). apply power_digit in Hp. destruct Hp as [Hd <-]. auto.
  - intros [Hd Hl]. exists (len s1). split; trivial. now apply power_digit.
Qed.

Lemma optional_lit c pos s1 s2 :
  denotes is_digit (Repeat (Lit c) 0 1) pos s1 s2 <-> s1 = [] \/ s1 = [c].
Proof.
  simpl. split.
  - intros (n & Hn & Hp). destruct n as [|[|n]]; [| |lia]; simpl in Hp.
    + now left.
    + destruct Hp as (a & b & -> & -> & ->). now right.
  - intros [-> | ->].
    + exists 0. split; [lia | reflexivity].
    + exists 1. split; [lia|]. now exists [c], [].
Qed.

Lemma PHONE_NUMBER_REGEX_compiles :
  compile PHONE_NUMBER_REGEX =
  Some (Concat StartText
         (Concat (Repeat Digit 2 4)
           (Concat (Repeat (Lit hyphen) 0 1)
             (Concat (Repeat Digit 3 4)
               (Concat (Repeat (Lit hyphen) 0 1)
                 (Concat (Repeat Digit 4 4) (Concat EndText Empty))))))).
Proof. reflexivity. Qed.

(** The engine accepts exactly the strings of the specification's pattern. *)
Lemma PHONE_NUMBER_REGEX_spec r s :
  compile PHONE_NUMBER_REGEX = Some r ->
  is_match is_digit r s = true <-> phone_pattern is_digit s.
Proof.
  rewrite PHONE_NUMBER_REGEX_compiles. intros [= <-].
  rewrite is_match_spec. unfold phone_pattern, optional_hyphen. split.
  - intros (i & s1 & s2 & _ & E & Hd).
    destruct Hd as (a0 & b0 & -> & [-> ->] & Hd).
    destruct Hd as (g1 & b1 & -> & H1 & Hd). apply repeat_digit in H1.
    destruct Hd as (h1 & b2 & -> & Hh1 & Hd). apply optional_lit in Hh1.
    destruct Hd as (g2 & b3 & -> & H2 & Hd). apply repeat_digit in H2.
    destruct Hd as (h2 & b4 & -> & Hh2 & Hd). apply optional_lit in Hh2.
    destruct Hd as (g3 & b5 & -> & H3 & Hd). apply repeat_digit in H3.
    destruct Hd as (e & b6 & -> & [-> E2] & Hd). simpl in Hd. subst b6.
    simpl in E2. subst s2. simpl in E. rewrite !List.app_nil_r in E. subst s.
    exists g1, h1, g2, h2, g3. intuition lia.
  - intros (g1 & h1 & g2 & h2 & g3 & -> & D1 & L1 & Hh1 & D2 & L2 & Hh2 & D3 & L3).
    exists 0, (g1 ++ h1 ++ g2 ++ h2 ++ g3), []. split; [lia|].
    split; [simpl; now rewrite List.app_nil_r|].
    exists [], (g1 ++ h1 ++ g2 ++ h2 ++ g3). repeat split.
    exists g1, (h1 ++ g2 ++ h2 ++ g3). split; [reflexivity|].
    split; [apply repeat_digit; split; [trivial | lia]|].
    exists h1, (g2 ++ h2 ++ g3). split; [reflexivity|].
    split; [now apply optional_lit|].
    exists g2, (h2 ++ g3). split; [reflexivity|].
    split; [apply repeat_digit; split; [trivial | lia]|].
    exists h2, g3. split; [reflexivity|].
    split; [now apply optional_lit|].
    exists g3, []. split; [now rewrite List.app_nil_r|].
    split; [apply repeat_digit; split; [trivial | lia]|].
    exists [], []. repeat split.
Qed.

End MatcherCorrect.

(** ** The two fields, unfolded *)

Section Fields.

Variable is_digit : char -> bool.

Lemma standardize_phone_number_spec s :
  standardize_phone_number s = remove_hyphens s.
Proof.
  unfold standardize_phone_number, replace. change (lit "-") with [hyphen].
  change (lit "") with (@nil char).
  induction s as [|c t IH]; [reflexivity|].
  cbn [replace_from startswith len List.length Nat.sub remove_hyphens List.filter].
  rewrite Bool.andb_true_r, N.eqb_sym.
  destruct (N.eqb c hyphen); cbn [negb List.app]; now rewrite IH.
Qed.

Lemma validate_name n :
  validate_str is_digit name_field n =
  if len n <? 2 then inr (string_too_short 2)
  else if 50 <? len n then inr (string_too_long 50)
  else inl n.
Proof.
  unfold validate_str, check_min_length, check_max_length, check_pattern.
  cbn [name_field min_length max_length pattern].
  destruct (len n <? 2); [reflexivity|]. now destruct (50 <? len n).
Qed.

Lemma validate_phone_number r p :
  compile PHONE_NUMBER_REGEX = Some r ->
  validate_after is_digit phone_number_field standardize_phone_number p =
  if is_match is_digit r p then inl (remove_hyphens p)
  else inr (string_pattern_mismatch PHONE_NUMBER_REGEX).
Proof.
  intros Hr. unfold validate_after, validate_str, check_min_length, check_max_length,
    check_pattern. cbn [phone_number_field min_length max_length pattern].
  rewrite Hr. destruct (is_match is_digit r p); [|reflexivity].
  now rewrite standardize_phone_number_spec.
Qed.

(** Acceptance, decided by the engine. *)
Lemma phone_pattern_dec p :
  {phone_pattern is_digit p} + {~ phone_pattern is_digit p}.
Proof.
  destruct (compile PHONE_NUMBER_REGEX) as [r|] eqn:Hr; [|discriminate].
  destruct (is_match is_digit r p) eqn:Hm.
  - left. now apply (PHONE_NUMBER_REGEX_spec is_digit p Hr).
  - right. intros H. apply (PHONE_NUMBER_REGEX_spec is_digit p Hr) in H. congruence.
Defined.

Lemma UserCreate_init_accepts p n :
  phone_pattern is_digit p -> 2 <= len n <= 50 ->
  UserCreate_init is_digit p n = inl {| phone_number := remove_hyphens p; name := n |}.
Proof.
  intros Hp Hn. unfold UserCreate_init.
  rewrite (validate_phone_number p PHONE_NUMBER_REGEX_compiles), validate_name.
  apply (PHONE_NUMBER_REGEX_spec is_digit p PHONE_NUMBER_REGEX_compiles) in Hp.
  rewrite Hp.
  destruct (Nat.ltb_spec (len n) 2); [lia|].
  destruct (Nat.ltb_spec 50 (len n)); [lia|]. reflexivity.
Qed.

Lemma UserCreate_init_bad_phone p n :
  ~ phone_pattern is_digit p ->
  UserCreate_init is_digit p n =
  inr (phone_number_error
       :: line_errors "name" (validate_str is_digit name_field n)).
Proof.
  intros Hp. unfold UserCreate_init.
  rewrite (validate_phone_number p PHONE_NUMBER_REGEX_compiles).
  destruct (is_match is_digit _ p) eqn:Hm.
  - exfalso. apply Hp.
    now apply (PHONE_NUMBER_REGEX_spec is_digit p PHONE_NUMBER_REGEX_compiles).
  - now destruct (validate_str is_digit name_field n).
Qed.

Lemma UserCreate_init_bad_name p n :
  len n < 2 \/ 50 < len n ->
  UserCreate_init is_digit p n =
  inr (line_errors "phone_number"
         (validate_after is_digit phone_number_field standardize_phone_number p)
       ++ [if len n <? 2 then name_too_short else name_too_long]).
Proof.
  intros Hn. unfold UserCreate_init. rewrite validate_name.
  destruct (validate_after is_digit phone_number_field standardize_phone_number p);
    destruct (Nat.ltb_spec (len n) 2); try reflexivity;
    destruct (Nat.ltb_spec 50 (len n)); try reflexivity; lia.
Qed.

Lemma UserCreate_init_inv p n u :
  UserCreate_init is_digit p n = inl u ->
  phone_pattern is_digit p /\ 2 <= len n <= 50
  /\ u = {| phone_number := remove_hyphens p; name := n |}.
Proof.
  intros H. destruct (phone_pattern_dec p) as [Hp|Hp].
  - destruct (Nat.ltb_spec (len n) 2) as [H2|H2];
      [rewrite UserCreate_init_bad_name in H by lia; discriminate|].
    destruct (Nat.ltb_spec 50 (len n)) as [H50|H50];
      [rewrite UserCreate_init_bad_name in H by lia; discriminate|].
    rewrite UserCreate_init_accepts in H by (trivial; lia).
    injection H as <-. repeat split; trivial.
  - rewrite UserCreate_init_bad_phone in H by trivial. discriminate.
Qed.

End Fields.



(** The JSON handler echoes the validated record and prints one line. *)
Lemma create_user_api_echo user w :
  response_phone_number (fst (create_user_api user w)) = phone_number user
  /\ response_name (fst (create_user_api user w)) = name user
  /\ exists line, snd (create_user_api user w) = w ++ [line].
Proof. repeat split. eexists. reflexivity. Qed.

(** ** Two digit classes that agree on a string *)

Lemma digits_ext d1 d2 (s : str) :
  (forall c, In c s -> d1 c = d2 c) -> digits d1 s -> digits d2 s.
Proof.
  unfold digits. rewrite !List.Forall_forall. intros H Hd c Hc.
  rewrite <- (H c Hc). auto.
Qed.

Lemma phone_pattern_ext d1 d2 (s : str) :
  (forall c, In c s -> d1 c = d2 c) -> phone_pattern d1 s -> phone_pattern d2 s.
Proof.
  intros H (g1 & h1 & g2 & h2 & g3 & -> & D1 & L1 & Hh1 & D2 & L2 & Hh2 & D3 & L3).
  exists g1, h1, g2, h2, g3. repeat split; trivial; try lia;
    (eapply digits_ext; [|eassumption]); intros c Hc; apply H;
    rewrite !List.in_app_iff; auto 10.
Qed.

Lemma UserCreate_init_ext d1 d2 (p n : str) :
  (forall c, In c p -> d1 c = d2 c) ->
  UserCreate_init d1 p n = UserCreate_init d2 p n.
Proof.
  intros H. unfold UserCreate_init.
  rewrite !(validate_phone_number _ p PHONE_NUMBER_REGEX_compiles), !validate_name.
  destruct (phone_pattern_dec d1 p) as [Hp|Hp].
  - assert (Hp2 := phone_pattern_ext d2 H Hp).
    apply (PHONE_NUMBER_REGEX_spec d1 p PHONE_NUMBER_REGEX_compiles) in Hp.
    apply (PHONE_NUMBER_REGEX_spec d2 p PHONE_NUMBER_REGEX_compiles) in Hp2.
    now rewrite Hp, Hp2.
  - assert (Hp2 : ~ phone_pattern d2 p).
    { intros Hp2. apply Hp. apply (phone_pattern_ext (d1:=d2) d1); trivial.
      intros c Hc. symmetry. auto. }
    destruct (is_match d1 _ p) eqn:E1.
    + exfalso. apply Hp.
      now apply (PHONE_NUMBER_REGEX_spec d1 p PHONE_NUMBER_REGEX_compiles).
    + destruct (is_match d2 _ p) eqn:E2; [|reflexivity].
      exfalso. apply Hp2.
      now apply (PHONE_NUMBER_REGEX_spec d2 p PHONE_NUMBER_REGEX_compiles).
Qed.

Lemma handle_registration_form_ext d1 d2 (p n : str) (w : Console) :
  (forall c, In c p -> d1 c = d2 c) ->
  handle_registration_form d1 p n w = handle_registration_form d2 p n w.
Proof.
  intros H. unfold handle_registration_form.
  now rewrite (UserCreate_init_ext d1 d2 p n H).
Qed.

(** ** Normalisation *)

Lemma remove_hyphens_app a b :
  remove_hyphens (a ++ b) = remove_hyphens a ++ remove_hyphens b.
Proof. apply List.filter_app. Qed.

Lemma remove_hyphens_clean s : ~ In hyphen (remove_hyphens s).
Proof.
  unfold remove_hyphens. rewrite List.filter_In. intros [_ H].
  now rewrite N.eqb_refl in H.
Qed.

Lemma remove_hyphens_id s : ~ In hyphen s -> remove_hyphens s = s.
Proof.
  induction s as [|c t IH]; [reflexivity|]. intros H. simpl.
  destruct (N.eqb_spec c hyphen) as [->|_]; simpl.
  - exfalso. apply H. now left.
  - f_equal. apply IH. intros Ht. apply H. now right.
Qed.

(** C6. Normalisation is idempotent: a string without a hyphen is returned as
    it is, and normalising a second time changes nothing, whatever the
    string. *)
Theorem standardize_phone_number_idempotent :
  (forall s, ~ In hyphen s -> standardize_phone_number s = s)
  /\ (forall s, standardize_phone_number (standardize_phone_number s)
                = standardize_phone_number s).
Proof.
  split; intros s.
  - rewrite standardize_phone_number_spec. apply remove_hyphens_id.
  - rewrite !standardize_phone_number_spec.
    apply remove_hyphens_id, remove_hyphens_clean.
Qed.

Lemma standardize_phone_number_idempotent_witness :
  ~ In hyphen (lit "01012345678")
  /\ standardize_phone_number (lit "01012345678") = lit "01012345678".
Proof.
  assert (H : ~ In hyphen (lit "01012345678")).
  { vm_compute. intuition discriminate. }
  split; [exact H|].
  exact (proj1 standardize_phone_number_idempotent (lit "01012345678") H).
Defined.

(** ** The validator *)

Section Properties.

Variable is_digit : char -> bool.
Hypothesis is_digit_ascii : forall c, (c < 128)%N -> is_digit c = is_ascii_digit c.

Lemma is_digit_hyphen : is_digit hyphen = false.
Proof. now rewrite is_digit_ascii. Qed.

Lemma plain_agree s :
  isascii s = true -> forall c, In c s -> is_digit c = is_ascii_digit c.
Proof.
  unfold isascii. rewrite List.forallb_forall. intros H c Hc.
  apply is_digit_ascii, N.ltb_lt, H, Hc.
Qed.

Lemma UserCreate_init_plain p n :
  isascii p = true ->
  UserCreate_init is_digit p n = UserCreate_init is_ascii_digit p n.
Proof. intros H. apply UserCreate_init_ext, plain_agree, H. Qed.

Lemma phone_pattern_plain p :
  isascii p = true -> phone_pattern is_digit p -> phone_pattern is_ascii_digit p.
Proof. intros H. apply phone_pattern_ext, plain_agree, H. Qed.

Lemma digits_clean g : digits is_digit g -> remove_hyphens g = g.
Proof.
  intros H. apply remove_hyphens_id. intros Hin.
  unfold digits in H. rewrite List.Forall_forall in H.
  specialize (H hyphen Hin). rewrite is_digit_hyphen in H. discriminate.
Qed.

Lemma optional_hyphen_removed h : optional_hyphen h -> remove_hyphens h = [].
Proof. now intros [-> | ->]. Qed.

Lemma phone_pattern_normalized s :
  phone_pattern is_digit s ->
  exists g1 g2 g3,
    remove_hyphens s = g1 ++ g2 ++ g3
    /\ digits is_digit g1 /\ 2 <= len g1 <= 4
    /\ digits is_digit g2 /\ 3 <= len g2 <= 4
    /\ digits is_digit g3 /\ len g3 = 4.
Proof.
  intros (g1 & h1 & g2 & h2 & g3 & -> & D1 & L1 & Hh1 & D2 & L2 & Hh2 & D3 & L3).
  exists g1, g2, g3. rewrite !remove_hyphens_app.
  rewrite (digits_clean D1), (digits_clean D2), (digits_clean D3).
  rewrite (optional_hyphen_removed Hh1), (optional_hyphen_removed Hh2).
  simpl. repeat split; trivial; lia.
Qed.

(** C4. The record of an accepted request holds a phone number made of digits
    only, without a hyphen, of 9 to 12 characters that split into groups of 2
    to 4, 3 to 4 and 4 digits, and a name of 2 to 50 characters.  When the
    submitted phone number is ASCII, the digits are the ten ASCII ones. *)
Theorem UserCreate_output_invariant p n u :
  UserCreate_init is_digit p n = inl u ->
  digits is_digit (phone_number u)
  /\ ~ In hyphen (phone_number u)
  /\ 9 <= len (phone_number u) <= 12
  /\ (exists g1 g2 g3,
        phone_number u = g1 ++ g2 ++ g3
        /\ 2 <= len g1 <= 4 /\ 3 <= len g2 <= 4 /\ len g3 = 4)
  /\ 2 <= len (name u) <= 50
  /\ (isascii p = true -> digits is_ascii_digit (phone_number u)).
Proof.
  intros H. apply UserCreate_init_inv in H. destruct H as (Hp & Hn & ->).
  cbn [phone_number name].
  destruct (phone_pattern_normalized Hp)
    as (g1 & g2 & g3 & E & D1 & L1 & D2 & L2 & D3 & L3).
  assert (D : digits is_digit (remove_hyphens p)).
  { rewrite E. unfold digits in *. rewrite !List.Forall_app. auto. }
  split; [|split; [|split; [|split; [|split]]]].
  - exact D.
  - apply remove_hyphens_clean.
  - rewrite E, !len_app. lia.
  - exists g1, g2, g3. auto.
  - exact Hn.
  - intros Ha. apply (digits_ext (d1 := is_digit)); [|exact D].
    intros c Hc. apply (plain_agree p Ha).
    unfold remove_hyphens in Hc. now apply List.filter_In in Hc.
Qed.

(** C5. The request (010-1234-5678, 홍길동) is accepted; the record holds the
    phone number 01012345678 and the name as it was sent, the three
    characters U+D64D U+AE38 U+B3D9. *)
Theorem UserCreate_round_trip :
  UserCreate_init is_digit (lit "010-1234-5678") (lit "홍길동")
  = inl {| phone_number := lit "01012345678"; name := lit "홍길동" |}
  /\ lit "홍길동" = [54861%N; 44600%N; 46041%N].
Proof.
  split; [|reflexivity]. now rewrite UserCreate_init_plain.
Qed.


(** C10. The pattern is checked on the string as it was sent, before the
    hyphens are removed: 0-101234-5678 is refused with the phone number's
    pattern mismatch, whatever the name, although its digits 01012345678 are
    accepted when sent without the hyphens. *)
Theorem hyphen_placement_matters :
  standardize_phone_number (lit "0-101234-5678") = lit "01012345678"
  /\ UserCreate_init is_digit (lit "01012345678") (lit "Alice")
     = inl {| phone_number := lit "01012345678"; name := lit "Alice" |}
  /\ UserCreate_init is_digit (lit "0-101234-5678") (lit "Alice")
     = inr [phone_number_error]
  /\ forall n, exists rest,
       UserCreate_init is_digit (lit "0-101234-5678") n
       = inr (phone_number_error :: rest).
Proof.
  split; [reflexivity|]. split; [now rewrite UserCreate_init_plain|].
  split; [now rewrite UserCreate_init_plain|].
  intros n. rewrite UserCreate_init_bad_phone; [eauto|].
  intros Hp. apply phone_pattern_plain in Hp; [|reflexivity].
  apply (PHONE_NUMBER_REGEX_spec is_ascii_digit _ PHONE_NUMBER_REGEX_compiles) in Hp.
  discriminate.
Qed.

End Properties.

(** ** The properties at concrete digit classes and requests *)

Lemma is_ascii_digit_ascii c : (c < 128)%N -> is_ascii_digit c = is_ascii_digit c.
Proof. reflexivity. Defined.

Lemma is_sample_unicode_digit_ascii c :
  (c < 128)%N -> is_sample_unicode_digit c = is_ascii_digit c.
Proof.
  intros H. unfold is_sample_unicode_digit.
  destruct (N.leb_spec 1632 c); [lia|]. destruct (N.leb_spec 65296 c); [lia|].
  simpl. now rewrite !Bool.orb_false_r.
Defined.

Lemma phone_pattern_by_search d s :
  (match compile PHONE_NUMBER_REGEX with
   | Some r => is_match d r s
   | None => false
   end) = true ->
  phone_pattern d s.
Proof.
  rewrite PHONE_NUMBER_REGEX_compiles.
  apply (PHONE_NUMBER_REGEX_spec d s PHONE_NUMBER_REGEX_compiles).
Qed.

Lemma not_phone_pattern_by_search d s :
  (match compile PHONE_NUMBER_REGEX with
   | Some r => is_match d r s
   | None => true
   end) = false ->
  ~ phone_pattern d s.
Proof.
  rewrite PHONE_NUMBER_REGEX_compiles. intros H Hp.
  apply (PHONE_NUMBER_REGEX_spec d s PHONE_NUMBER_REGEX_compiles) in Hp. congruence.
Qed.

Lemma UserCreate_output_invariant_witness :
  let u := {| phone_number := lit "٠١٠١٢٣٤٥٦٧٨"; name := lit "홍길동" |} in
  digits is_sample_unicode_digit (phone_number u)
  /\ ~ In hyphen (phone_number u)
  /\ 9 <= len (phone_number u) <= 12
  /\ (exists g1 g2 g3,
        phone_number u = g1 ++ g2 ++ g3
        /\ 2 <= len g1 <= 4 /\ 3 <= len g2 <= 4 /\ len g3 = 4)
  /\ 2 <= len (name u) <= 50
  /\ (isascii (lit "٠١٠-١٢٣٤-٥٦٧٨") = true -> digits is_ascii_digit (phone_number u)).
Proof.
  intros u.
  apply (@UserCreate_output_invariant is_sample_unicode_digit
           is_sample_unicode_digit_ascii (lit "٠١٠-١٢٣٤-٥٦٧٨") (lit "홍길동") u).
  vm_compute. reflexivity.
Defined.

Lemma UserCreate_round_trip_witness :
  UserCreate_init is_ascii_digit (lit "010-1234-5678") (lit "홍길동")
  = inl {| phone_number := lit "01012345678"; name := lit "홍길동" |}
  /\ lit "홍길동" = [54861%N; 44600%N; 46041%N].
Proof. exact (@UserCreate_round_trip is_ascii_digit is_ascii_digit_ascii). Defined.


Lemma hyphen_placement_matters_witness :
  standardize_phone_number (lit "0-101234-5678") = lit "01012345678"
  /\ UserCreate_init is_sample_unicode_digit (lit "01012345678") (lit "Alice")
     = inl {| phone_number := lit "01012345678"; name := lit "Alice" |}
  /\ UserCreate_init is_sample_unicode_digit (lit "0-101234-5678") (lit "Alice")
     = inr [phone_number_error]
  /\ forall n, exists rest,
       UserCreate_init is_sample_unicode_digit (lit "0-101234-5678") n
       = inr (phone_number_error :: rest).
Proof.
  exact (@hyphen_placement_matters is_sample_unicode_digit
           is_sample_unicode_digit_ascii).
Defined.

(** * Further properties of the validator and of the handlers *)

(** ** [standardize_phone_number] on any string *)

Lemma len_remove_hyphens s :
  len (remove_hyphens s) + List.count_occ N.eq_dec s hyphen = len s.
Proof.
  induction s as [|c t IH]; [reflexivity|]. simpl.
  destruct (N.eq_dec c hyphen) as [->|Hc].
  - rewrite N.eqb_refl. simpl. unfold len in *. lia.
  - apply N.eqb_neq in Hc. rewrite Hc. simpl. unfold len in *. lia.
Qed.

(** X5. [standardize_phone_number] removes the hyphens and nothing else: it
    works piece by piece on a concatenation, keeps exactly the characters
    that are not hyphens, shortens the string by the number of its hyphens,
    and returns its argument unchanged exactly when there is no hyphen in
    it. *)
Theorem standardize_phone_number_removes_only_hyphens :
  (forall a b, standardize_phone_number (a ++ b)
               = standardize_phone_number a ++ standardize_phone_number b)
  /\ (forall s c, In c (standardize_phone_number s) <-> In c s /\ c <> hyphen)
  /\ (forall s, len (standardize_phone_number s) + List.count_occ N.eq_dec s hyphen
                = len s)
  /\ (forall s, standardize_phone_number s = s <-> ~ In hyphen s).
Proof.
  split; [|split; [|split]].
  - intros a b. rewrite !standardize_phone_number_spec. apply remove_hyphens_app.
  - intros s c. rewrite standardize_phone_number_spec. unfold remove_hyphens.
    rewrite List.filter_In, Bool.negb_true_iff, N.eqb_neq. reflexivity.
  - intros s. rewrite standardize_phone_number_spec. apply len_remove_hyphens.
  - intros s. rewrite standardize_phone_number_spec. split.
    + intros E H. rewrite <- E in H. now apply remove_hyphens_clean in H.
    + apply remove_hyphens_id.
Qed.

(** ** The shape of an accepted phone number *)

Section Shape.

Variable is_digit : char -> bool.

Lemma phone_pattern_head p :
  phone_pattern is_digit p -> exists a t, p = a :: t /\ is_digit a = true.
Proof.
  intros (g1 & h1 & g2 & h2 & g3 & -> & D1 & L1 & _).
  destruct g1 as [|a g1]; [simpl in L1; lia|].
  inversion D1; subst. simpl. eauto.
Qed.

Lemma phone_pattern_last p :
  phone_pattern is_digit p -> exists t z, p = t ++ [z] /\ is_digit z = true.
Proof.
  intros (g1 & h1 & g2 & h2 & g3 & -> & _ & _ & _ & _ & _ & _ & D3 & L3).
  destruct (List.exists_last (l := g3)) as (t & z & ->);
    [intros ->; discriminate|].
  unfold digits in D3. apply List.Forall_app in D3. destruct D3 as [_ Dz].
  inversion Dz; subst.
  exists (g1 ++ h1 ++ g2 ++ h2 ++ t), z. rewrite <- !List.app_assoc. auto.
Qed.

(** A string of 9 to 12 digits, without any hyphen, is of the pattern. *)
Lemma digits_accepted s :
  digits is_digit s -> 9 <= len s <= 12 -> phone_pattern is_digit s.
Proof.
  intros D L.
  pose (k2 := if len s <=? 9 then 3 else 4). pose (k1 := len s - 4 - k2).
  assert (E : s = List.firstn k1 s ++ List.firstn k2 (List.skipn k1 s)
                  ++ List.skipn k2 (List.skipn k1 s))
    by now rewrite !List.firstn_skipn.
  assert (D' := D). unfold digits in D'. rewrite E in D'.
  apply List.Forall_app in D'. destruct D' as [D1 D'].
  apply List.Forall_app in D'. destruct D' as [D2 D3].
  exists (List.firstn k1 s), [], (List.firstn k2 (List.skipn k1 s)), [],
         (List.skipn k2 (List.skipn k1 s)).
  unfold optional_hyphen, len in *.
  rewrite !List.length_firstn, !List.length_skipn. subst k1 k2.
  destruct (Nat.leb_spec (List.length s) 9); simpl List.app;
    repeat split; auto; lia.
Qed.

End Shape.

(** ** The validator as a whole *)

Section Coverage.

Variable is_digit : char -> bool.
Hypothesis is_digit_ascii : forall c, (c < 128)%N -> is_digit c = is_ascii_digit c.

Lemma count_hyphen_digits g :
  digits is_digit g -> List.count_occ N.eq_dec g hyphen = 0.
Proof.
  intros D. apply List.count_occ_not_In. intros H.
  unfold digits in D. rewrite List.Forall_forall in D.
  specialize (D hyphen H). rewrite (is_digit_hyphen is_digit is_digit_ascii) in D.
  discriminate.
Qed.

Lemma count_hyphen_optional h :
  optional_hyphen h -> List.count_occ N.eq_dec h hyphen <= 1 /\ len h <= 1.
Proof. intros [-> | ->]; simpl; split; auto. Qed.

(** X1. The phone number of an accepted request, as it was sent: 9 to 14
    characters, each a digit or a hyphen, at most two hyphens, a digit at
    both ends.  The stored phone number is shorter by the number of hyphens
    and holds no character that was not sent. *)
Theorem accepted_phone_number_shape p n u :
  UserCreate_init is_digit p n = inl u ->
  9 <= len p <= 14
  /\ List.Forall (fun c => is_digit c = true \/ c = hyphen) p
  /\ List.count_occ N.eq_dec p hyphen <= 2
  /\ len (phone_number u) + List.count_occ N.eq_dec p hyphen = len p
  /\ (exists a t, p = a :: t /\ is_digit a = true)
  /\ (exists t z, p = t ++ [z] /\ is_digit z = true)
  /\ (forall c, In c (phone_number u) -> In c p).
Proof.
  intros H. apply UserCreate_init_inv in H. destruct H as (Hp & _ & ->).
  cbn [phone_number].
  assert (Hhead := phone_pattern_head Hp). assert (Hlast := phone_pattern_last Hp).
  destruct Hp as (g1 & h1 & g2 & h2 & g3 & -> & D1 & L1 & Hh1 & D2 & L2 & Hh2 & D3 & L3).
  destruct (count_hyphen_optional Hh1) as [C1 M1].
  destruct (count_hyphen_optional Hh2) as [C2 M2].
  assert (C : List.count_occ N.eq_dec (g1 ++ h1 ++ g2 ++ h2 ++ g3) hyphen <= 2).
  { rewrite !List.count_occ_app. unfold char.
    rewrite (count_hyphen_digits D1), (count_hyphen_digits D2),
      (count_hyphen_digits D3). lia. }
  split; [|split; [|split; [|split; [|split; [|split]]]]]; trivial.
  - rewrite !len_app. lia.
  - unfold digits in *. rewrite !List.Forall_app. repeat split;
      try (eapply List.Forall_impl; [|eassumption]; simpl; auto).
    + destruct Hh1 as [-> | ->]; [constructor | constructor; [now right | constructor]].
    + destruct Hh2 as [-> | ->]; [constructor | constructor; [now right | constructor]].
  - apply len_remove_hyphens.
  - intros c Hc. unfold remove_hyphens in Hc. now apply List.filter_In in Hc.
Qed.

(** X3. A validated record is stable: validating its own phone number and
    name again is accepted and gives the same record. *)
Theorem validated_record_is_stable p n u :
  UserCreate_init is_digit p n = inl u ->
  UserCreate_init is_digit (phone_number u) (name u) = inl u.
Proof.
  intros H. apply UserCreate_init_inv in H. destruct H as (Hp & Hn & ->).
  cbn [phone_number name].
  destruct (phone_pattern_normalized is_digit_ascii Hp)
    as (g1 & g2 & g3 & E & D1 & L1 & D2 & L2 & D3 & L3).
  rewrite UserCreate_init_accepts; trivial.
  - f_equal. f_equal. apply remove_hyphens_id, remove_hyphens_clean.
  - apply digits_accepted.
    + rewrite E. unfold digits in *. rewrite !List.Forall_app. auto.
    + rewrite E, !len_app. lia.
Qed.

End Coverage.

(** ** Outcomes of a request *)

Section Outcomes.

Variable is_digit : char -> bool.




(** X8. The JSON handler, on the record of an accepted request, answers with
    the phone number without its hyphens and the name as it was sent, builds
    its message around that name, and prints one line. *)
Theorem create_user_api_after_validation p n u w :
  UserCreate_init is_digit p n = inl u ->
  create_user_api u w
  = ({| response_phone_number := remove_hyphens p;
        response_name := n;
        response_message :=
          lit "사용자 '" ++ n ++ lit "'님이 성공적으로 등록되었습니다." |},
     w ++ [lit "API를 통해 새로운 사용자 등록 시도: " ++ n ++ lit " ("
           ++ remove_hyphens p ++ lit ")"])
  /\ ~ In hyphen (response_phone_number (fst (create_user_api u w))).
Proof.
  intros H. apply UserCreate_init_inv in H. destruct H as (_ & _ & ->).
  split; [reflexivity|]. apply remove_hyphens_clean.
Qed.

End Outcomes.

Section Answers.

Variable is_digit : char -> bool.




End Answers.

(** X12. [PHONE_NUMBER_REGEX] compiles, and the search for it succeeds on
    exactly the strings made of 2 to 4 digits, an optional hyphen, 3 to 4
    digits, an optional hyphen and 4 digits, with nothing before or after:
    the two anchors turn the search into a match of the whole string. *)
Theorem PHONE_NUMBER_REGEX_accepts_exactly (is_digit : char -> bool) :
  exists r,
    compile PHONE_NUMBER_REGEX = Some r
    /\ forall s, is_match is_digit r s = true <-> phone_pattern is_digit s.
Proof.
  eexists. split; [exact PHONE_NUMBER_REGEX_compiles|].
  intros s. apply PHONE_NUMBER_REGEX_spec, PHONE_NUMBER_REGEX_compiles.
Qed.

(** ** The further properties at concrete requests *)

Lemma accepted_phone_number_shape_witness :
  let p := lit "٠٢-٣٤٥-٦٧٨٩" in
  let u := {| phone_number := lit "٠٢٣٤٥٦٧٨٩"; name := lit "Al" |} in
  9 <= len p <= 14
  /\ List.Forall (fun c => is_sample_unicode_digit c = true \/ c = hyphen) p
  /\ List.count_occ N.eq_dec p hyphen <= 2
  /\ len (phone_number u) + List.count_occ N.eq_dec p hyphen = len p
  /\ (exists a t, p = a :: t /\ is_sample_unicode_digit a = true)
  /\ (exists t z, p = t ++ [z] /\ is_sample_unicode_digit z = true)
  /\ (forall c, In c (phone_number u) -> In c p).
Proof.
  intros p u.
  apply (@accepted_phone_number_shape is_sample_unicode_digit
           is_sample_unicode_digit_ascii p (lit "Al") u).
  vm_compute. reflexivity.
Defined.

Lemma validated_record_is_stable_witness :
  let u := {| phone_number := lit "01012345678"; name := lit "Al" |} in
  UserCreate_init is_ascii_digit (phone_number u) (name u) = inl u.
Proof.
  intros u.
  apply (@validated_record_is_stable is_ascii_digit is_ascii_digit_ascii
           (lit "010-1234-5678") (lit "Al") u).
  vm_compute. reflexivity.
Defined.



Lemma create_user_api_after_validation_witness :
  let u := {| phone_number := lit "01012345678"; name := lit "Al" |} in
  create_user_api u []
  = ({| response_phone_number := remove_hyphens (lit "010-1234-5678");
        response_name := lit "Al";
        response_message :=
          lit "사용자 '" ++ lit "Al" ++ lit "'님이 성공적으로 등록되었습니다." |},
     [] ++ [lit "API를 통해 새로운 사용자 등록 시도: " ++ lit "Al" ++ lit " ("
            ++ remove_hyphens (lit "010-1234-5678") ++ lit ")"])
  /\ ~ In hyphen (response_phone_number (fst (create_user_api u []))).
Proof.
  intros u.
  apply (@create_user_api_after_validation is_ascii_digit (lit "010-1234-5678")
           (lit "Al") u []).
  vm_compute. reflexivity.
Defined.

(** * Any two strings: the input step of the fields *)

Lemma isascii_text s : isascii s = true -> is_text s = true.
Proof.
  unfold isascii, is_text. rewrite !List.forallb_forall. intros H c Hc.
  specialize (H c Hc). apply N.ltb_lt in H. unfold is_surrogate.
  destruct (N.leb_spec 55296 c); [lia | reflexivity].
Qed.

Lemma is_text_app a b : is_text (a ++ b) = is_text a && is_text b.
Proof. apply List.forallb_app. Qed.

Lemma is_text_spaces k : is_text (List.repeat 32%N k) = true.
Proof. induction k as [|k IH]; [reflexivity | exact IH]. Qed.

Lemma is_ascii_digit_text c : is_ascii_digit c = true -> is_surrogate c = false.
Proof.
  unfold is_ascii_digit, is_surrogate.
  destruct (N.leb_spec 48 c); destruct (N.leb_spec c 57); try discriminate.
  intros _. destruct (N.leb_spec 55296 c); [lia | reflexivity].
Defined.

Lemma is_sample_unicode_digit_text c :
  is_sample_unicode_digit c = true -> is_surrogate c = false.
Proof.
  unfold is_sample_unicode_digit, is_ascii_digit, is_surrogate. intros H.
  destruct (N.leb_spec 55296 c); [|reflexivity].
  destruct (N.leb_spec c 57343); [|reflexivity]. exfalso.
  destruct (N.leb_spec c 57); [|destruct (N.leb_spec c 1641);
    [|destruct (N.leb_spec 65296 c)]]; try lia;
    rewrite ?Bool.andb_false_r in H; simpl in H; discriminate.
Defined.

Section Input.

Variable is_digit : char -> bool.

Lemma phone_number_cases p :
  (is_text p = true /\ phone_pattern is_digit p
   /\ take_str p (validate_after is_digit phone_number_field standardize_phone_number)
      = inl (remove_hyphens p))
  \/ (is_text p = true /\ ~ phone_pattern is_digit p
      /\ take_str p (validate_after is_digit phone_number_field standardize_phone_number)
         = inr (string_pattern_mismatch PHONE_NUMBER_REGEX))
  \/ (is_text p = false
      /\ take_str p (validate_after is_digit phone_number_field standardize_phone_number)
         = inr string_unicode).
Proof.
  unfold take_str. destruct (is_text p); [|auto].
  rewrite (validate_phone_number is_digit p PHONE_NUMBER_REGEX_compiles).
  assert (S := PHONE_NUMBER_REGEX_spec is_digit p PHONE_NUMBER_REGEX_compiles).
  destruct (is_match is_digit _ p).
  - left. repeat split. now apply S.
  - right; left. repeat split. intros Hp. apply S in Hp. discriminate.
Qed.

Lemma name_cases n :
  (is_text n = true /\ 2 <= len n <= 50
   /\ take_str n (validate_str is_digit name_field) = inl n)
  \/ (is_text n = true /\ len n < 2
      /\ take_str n (validate_str is_digit name_field) = inr (string_too_short 2))
  \/ (is_text n = true /\ 50 < len n
      /\ take_str n (validate_str is_digit name_field) = inr (string_too_long 50))
  \/ (is_text n = false
      /\ take_str n (validate_str is_digit name_field) = inr string_unicode).
Proof.
  unfold take_str. destruct (is_text n); [|auto 6]. rewrite validate_name.
  destruct (Nat.ltb_spec (len n) 2); [auto|].
  destruct (Nat.ltb_spec 50 (len n)); [auto 6|]. left. repeat split; lia.
Qed.

(** On text the input step lets everything through. *)
Lemma UserCreate_validate_text p n :
  is_text p = true -> is_text n = true ->
  UserCreate_validate is_digit p n = UserCreate_init is_digit p n.
Proof.
  intros Hp Hn. unfold UserCreate_validate, UserCreate_init, take_str.
  now rewrite Hp, Hn.
Qed.

(** What is accepted is text, and is accepted by the checks of
    [UserCreate_init]. *)
Lemma UserCreate_validate_accepted p n u :
  UserCreate_validate is_digit p n = inl u ->
  is_text p = true /\ is_text n = true /\ UserCreate_init is_digit p n = inl u.
Proof.
  intros H. assert (H' := H). unfold UserCreate_validate, take_str in H'.
  destruct (is_text p) eqn:Hp; [|discriminate].
  destruct (is_text n) eqn:Hn.
  - repeat split. now rewrite <- UserCreate_validate_text.
  - destruct (validate_after is_digit phone_number_field standardize_phone_number p);
      discriminate.
Qed.

(** X4. A request is accepted exactly when both strings are text, the phone
    number is of the pattern and the name has 2 to 50 characters.  A refused
    request carries one or two errors, at most one per field, and each field
    is judged on its own: a field that is not text has the entry
    [string_unicode]; a phone number that is text has its entry exactly when
    it is outside the pattern; a name that is text has the too-short entry
    exactly when it has fewer than 2 characters and the too-long entry
    exactly when it has more than 50.  There is no other entry. *)
Theorem UserCreate_outcome p n :
  ((exists u, UserCreate_validate is_digit p n = inl u)
   <-> is_text p = true /\ phone_pattern is_digit p
       /\ is_text n = true /\ 2 <= len n <= 50)
  /\ (forall errors, UserCreate_validate is_digit p n = inr errors ->
        1 <= List.length errors <= 2
        /\ List.NoDup (List.map loc errors)
        /\ (In phone_number_unicode errors <-> is_text p = false)
        /\ (In phone_number_error errors
            <-> is_text p = true /\ ~ phone_pattern is_digit p)
        /\ (In name_unicode errors <-> is_text n = false)
        /\ (In name_too_short errors <-> is_text n = true /\ len n < 2)
        /\ (In name_too_long errors <-> is_text n = true /\ 50 < len n)
        /\ (forall e, In e errors ->
              e = phone_number_unicode \/ e = phone_number_error
              \/ e = name_unicode \/ e = name_too_short \/ e = name_too_long)).
Proof.
  unfold UserCreate_validate.
  destruct (phone_number_cases p) as [(Tp & Hp & Ep) | [(Tp & Hp & Ep) | (Tp & Ep)]];
    destruct (name_cases n)
      as [(Tn & Hn & En) | [(Tn & Hn & En) | [(Tn & Hn & En) | (Tn & En)]]];
    rewrite Ep, En; cbn [line_errors List.app];
    (split; [split; [intros [u H] | intros (T1 & H1 & T2 & H2)] | intros errors H]);
    try discriminate;
    try solve [repeat split; first [assumption | lia]];
    try solve [eexists; reflexivity];
    try solve [exfalso; first [congruence | contradiction | lia]];
    injection H as <-;
    unfold phone_number_unicode, phone_number_error, name_unicode,
      name_too_short, name_too_long; simpl;
    (split; [lia|]);
    (split; [repeat constructor; simpl; intuition discriminate|]);
    repeat split; intros;
    repeat match goal with
           | H : _ \/ _ |- _ => destruct H
           | H : _ /\ _ |- _ => destruct H
           | H : False |- _ => destruct H
           end;
    try discriminate; try contradiction; try congruence; try lia; subst; auto 6.
Qed.

(** X9. The pattern is anchored at both ends: a phone number that begins or
    ends with a character that is not a digit (a space, a line break, a plus
    sign, a hyphen) is refused, whatever stands next to that character and
    whatever the name; the first entry is the phone number's, the pattern
    mismatch when the string is text and [string_unicode] when it is not. *)
Theorem padded_phone_number_rejected s c n :
  is_digit c = false ->
  (exists rest,
     UserCreate_validate is_digit (c :: s) n
     = inr ((if is_text (c :: s) then phone_number_error else phone_number_unicode)
            :: rest))
  /\ (exists rest,
        UserCreate_validate is_digit (s ++ [c]) n
        = inr ((if is_text (s ++ [c]) then phone_number_error
                else phone_number_unicode) :: rest)).
Proof.
  intros Hc.
  assert (H1 : ~ phone_pattern is_digit (c :: s)).
  { intros Hp. apply phone_pattern_head in Hp.
    destruct Hp as (a & t & [= <- _] & Ha). congruence. }
  assert (H2 : ~ phone_pattern is_digit (s ++ [c])).
  { intros Hp. apply phone_pattern_last in Hp. destruct Hp as (t & z & E & Hz).
    apply List.app_inj_tail in E. destruct E as [_ <-]. congruence. }
  unfold UserCreate_validate. split.
  - destruct (phone_number_cases (c :: s)) as [(T & Hp & E) | [(T & Hp & E) | (T & E)]];
      [contradiction | |]; rewrite E, T;
      destruct (take_str n (validate_str is_digit name_field)); eexists; reflexivity.
  - destruct (phone_number_cases (s ++ [c])) as [(T & Hp & E) | [(T & Hp & E) | (T & E)]];
      [contradiction | |]; rewrite E, T;
      destruct (take_str n (validate_str is_digit name_field)); eexists; reflexivity.
Qed.

(** X10. Among names that are text, the name is judged by its length alone:
    two such names of the same length, sent with the same phone number, are
    both accepted, each stored as it was sent beside the same phone number,
    or both refused with the same errors. *)
Theorem name_content_is_not_inspected p n1 n2 :
  is_text n1 = true -> is_text n2 = true -> len n1 = len n2 ->
  match UserCreate_validate is_digit p n1, UserCreate_validate is_digit p n2 with
  | inl u1, inl u2 =>
      phone_number u1 = phone_number u2 /\ name u1 = n1 /\ name u2 = n2
  | inr e1, inr e2 => e1 = e2
  | _, _ => False
  end.
Proof.
  intros T1 T2 H. unfold UserCreate_validate.
  assert (E1 : take_str n1 (validate_str is_digit name_field)
               = validate_str is_digit name_field n1)
    by (unfold take_str; now rewrite T1).
  assert (E2 : take_str n2 (validate_str is_digit name_field)
               = validate_str is_digit name_field n2)
    by (unfold take_str; now rewrite T2).
  rewrite E1, E2, !validate_name, H.
  destruct (take_str p (validate_after is_digit phone_number_field
                          standardize_phone_number));
    destruct (len n2 <? 2); destruct (50 <? len n2); simpl; auto.
Qed.

End Input.

Section InputProperties.

Variable is_digit : char -> bool.
Hypothesis is_digit_ascii : forall c, (c < 128)%N -> is_digit c = is_ascii_digit c.
Hypothesis is_digit_text : forall c, is_digit c = true -> is_surrogate c = false.

Lemma digits_text g : digits is_digit g -> is_text g = true.
Proof.
  unfold digits, is_text. rewrite List.Forall_forall, List.forallb_forall.
  intros H c Hc. now rewrite (@is_digit_text c (H c Hc)).
Qed.

Lemma phone_pattern_text p : phone_pattern is_digit p -> is_text p = true.
Proof.
  intros (g1 & h1 & g2 & h2 & g3 & -> & D1 & _ & Hh1 & D2 & _ & Hh2 & D3 & _).
  rewrite !is_text_app, (digits_text D1), (digits_text D2), (digits_text D3).
  now destruct Hh1 as [-> | ->]; destruct Hh2 as [-> | ->].
Qed.

Lemma UserCreate_validate_ascii p n :
  isascii p = true -> is_text n = true ->
  UserCreate_validate is_digit p n = UserCreate_init is_ascii_digit p n.
Proof.
  intros Hp Hn. rewrite UserCreate_validate_text by auto using isascii_text.
  now apply UserCreate_init_plain.
Qed.

(** C1. A phone number of the pattern together with a name of 2 to 50
    characters that is text is accepted; the phone number of the record is
    the submitted one with every hyphen removed, so it holds no hyphen.  With
    a name of that length that is not text, the request is refused with the
    name's [string_unicode] entry. *)
Theorem UserCreate_accepts_matching p n :
  phone_pattern is_digit p -> 2 <= len n <= 50 ->
  (is_text n = true ->
     UserCreate_validate is_digit p n
     = inl {| phone_number := remove_hyphens p; name := n |}
     /\ ~ In hyphen (remove_hyphens p))
  /\ (is_text n = false -> UserCreate_validate is_digit p n = inr [name_unicode]).
Proof.
  intros Hp Hn. assert (Tp := phone_pattern_text Hp). split; intros Tn.
  - rewrite UserCreate_validate_text by trivial. split.
    + now apply UserCreate_init_accepts.
    + apply remove_hyphens_clean.
  - unfold UserCreate_validate.
    destruct (phone_number_cases is_digit p)
      as [(_ & _ & Ep) | [(_ & Hp' & _) | (Tp' & _)]];
      [|contradiction|congruence].
    destruct (name_cases is_digit n)
      as [(Tn' & _) | [(Tn' & _) | [(Tn' & _) | (_ & En)]]]; try congruence.
    rewrite Ep, En. reflexivity.
Qed.

(** C2. A phone number outside the pattern is refused, whatever the name, and
    the first entry of the errors is the one of field [phone_number]: the
    pattern mismatch when the phone number is text, [string_unicode] when it
    is not.  The specification's examples are refused with the pattern
    mismatch alone. *)
Theorem UserCreate_rejects_mismatch :
  (forall p n, ~ phone_pattern is_digit p ->
     exists rest,
       UserCreate_validate is_digit p n
       = inr ((if is_text p then phone_number_error else phone_number_unicode)
              :: rest))
  /\ UserCreate_validate is_digit (lit "010-1234-567") (lit "Alice")
     = inr [phone_number_error]
  /\ UserCreate_validate is_digit (lit "abc") (lit "Alice") = inr [phone_number_error]
  /\ UserCreate_validate is_digit (lit "123") (lit "Alice") = inr [phone_number_error]
  /\ UserCreate_validate is_digit (lit "010-12-5678") (lit "Alice")
     = inr [phone_number_error].
Proof.
  split; [|split; [|split; [|split]]].
  - intros p n Hp. unfold UserCreate_validate.
    destruct (phone_number_cases is_digit p)
      as [(T & Hp' & E) | [(T & _ & E) | (T & E)]];
      [contradiction | |]; rewrite E, T;
      destruct (take_str n (validate_str is_digit name_field)); eexists; reflexivity.
  - now rewrite UserCreate_validate_ascii.
  - now rewrite UserCreate_validate_ascii.
  - now rewrite UserCreate_validate_ascii.
  - now rewrite UserCreate_validate_ascii.
Qed.

(** C3. A name shorter than 2 or longer than 50 characters is refused,
    whatever the phone number, and the errors end with the entry of field
    [name]: for a name that is text, [string_too_short] with minimum 2 below
    2 characters and [string_too_long] beyond 50; for a name that is not
    text, [string_unicode].  The only entry that can come before it is the
    one of the phone number.  With the phone number 010-1234-5678 and the
    name A, the too-short entry is the only one. *)
Theorem UserCreate_rejects_name_length :
  (forall p n, len n < 2 \/ 50 < len n ->
     exists before,
       UserCreate_validate is_digit p n
       = inr (before
              ++ [if is_text n
                  then (if len n <? 2 then name_too_short else name_too_long)
                  else name_unicode])
       /\ (before = [] \/ before = [phone_number_error]
           \/ before = [phone_number_unicode]))
  /\ UserCreate_validate is_digit (lit "010-1234-5678") (lit "A")
     = inr [name_too_short].
Proof.
  split.
  - intros p n Hn. unfold UserCreate_validate.
    destruct (name_cases is_digit n)
      as [(Tn & Hn' & En) | [(Tn & Hn' & En) | [(Tn & Hn' & En) | (Tn & En)]]];
      [lia | | |]; rewrite En, Tn;
      try rewrite (proj2 (Nat.ltb_lt (len n) 2)) by lia;
      try rewrite (proj2 (Nat.ltb_ge (len n) 2)) by lia;
      destruct (phone_number_cases is_digit p)
        as [(_ & _ & Ep) | [(_ & _ & Ep) | (_ & Ep)]]; rewrite Ep;
      [exists [] | exists [phone_number_error] | exists [phone_number_unicode]
      |exists [] | exists [phone_number_error] | exists [phone_number_unicode]
      |exists [] | exists [phone_number_error] | exists [phone_number_unicode]];
      auto.
  - now rewrite UserCreate_validate_ascii.
Qed.

(** C7. The length of the name is the length of the string as it was sent:
    with a phone number of the pattern, a name that is text is accepted
    exactly when it has 2 to 50 characters, spaces included, and it is stored
    unchanged; below 2 it is refused as too short and beyond 50 as too long.
    Spaces added at the end count like any character.  A letter followed by a
    space and a name of two spaces are accepted; 50 letters followed by a
    space are refused as too long, and a single space as too short. *)
Theorem name_length_is_raw :
  (forall p n, phone_pattern is_digit p -> is_text n = true ->
     (UserCreate_validate is_digit p n
      = inl {| phone_number := remove_hyphens p; name := n |}
      <-> 2 <= len n <= 50)
     /\ (len n < 2 -> UserCreate_validate is_digit p n = inr [name_too_short])
     /\ (50 < len n -> UserCreate_validate is_digit p n = inr [name_too_long]))
  /\ (forall p n k, phone_pattern is_digit p -> is_text n = true ->
        (UserCreate_validate is_digit p (n ++ List.repeat 32%N k)
         = inl {| phone_number := remove_hyphens p;
                  name := n ++ List.repeat 32%N k |}
         <-> 2 <= len n + k <= 50))
  /\ UserCreate_validate is_digit (lit "010-1234-5678") (lit "A ")
     = inl {| phone_number := lit "01012345678"; name := lit "A " |}
  /\ UserCreate_validate is_digit (lit "010-1234-5678") (lit "  ")
     = inl {| phone_number := lit "01012345678"; name := lit "  " |}
  /\ UserCreate_validate is_digit (lit "010-1234-5678")
       (List.repeat 65%N 50 ++ lit " ")
     = inr [name_too_long]
  /\ UserCreate_validate is_digit (lit "010-1234-5678") (lit " ")
     = inr [name_too_short].
Proof.
  assert (G : forall p n, phone_pattern is_digit p -> is_text n = true ->
     (UserCreate_validate is_digit p n
      = inl {| phone_number := remove_hyphens p; name := n |}
      <-> 2 <= len n <= 50)
     /\ (len n < 2 -> UserCreate_validate is_digit p n = inr [name_too_short])
     /\ (50 < len n -> UserCreate_validate is_digit p n = inr [name_too_long])).
  { intros p n Hp Tn. assert (Tp := phone_pattern_text Hp).
    unfold UserCreate_validate.
    destruct (phone_number_cases is_digit p)
      as [(_ & _ & Ep) | [(_ & Hp' & _) | (Tp' & _)]];
      [|contradiction|congruence].
    destruct (name_cases is_digit n)
      as [(_ & Hn & En) | [(_ & Hn & En) | [(_ & Hn & En) | (Tn' & _)]]];
      [| | |congruence]; rewrite Ep, En; cbn [line_errors List.app];
      (split; [split; [intros H; first [discriminate H | exact Hn]
                      | intros H; first [reflexivity | lia]]
              | split; intros H; first [reflexivity | lia]]). }
  split; [exact G|]. split.
  - intros p n k Hp Tn.
    assert (T : is_text (n ++ List.repeat 32%N k) = true)
      by now rewrite is_text_app, Tn, is_text_spaces.
    destruct (G p (n ++ List.repeat 32%N k) Hp T) as [E _].
    rewrite len_app in E. unfold len in *. now rewrite List.repeat_length in E.
  - repeat split; now rewrite UserCreate_validate_ascii.
Qed.

(** X2. With a name of 2 to 50 characters that is text, a phone number sent
    without hyphens is accepted exactly when it is made of 9 to 12 digits, and
    the record then holds the phone number and the name as they were sent. *)
Theorem unformatted_phone_number_accepted_iff p n :
  ~ In hyphen p -> 2 <= len n <= 50 -> is_text n = true ->
  ((exists u, UserCreate_validate is_digit p n = inl u)
   <-> digits is_digit p /\ 9 <= len p <= 12)
  /\ (forall u, UserCreate_validate is_digit p n = inl u ->
        u = {| phone_number := p; name := n |}).
Proof.
  intros Hh Hn Tn. assert (E : remove_hyphens p = p) by now apply remove_hyphens_id.
  split; [split|].
  - intros [u H]. apply UserCreate_validate_accepted in H.
    destruct H as (_ & _ & H). apply UserCreate_init_inv in H.
    destruct H as (Hp & _ & _).
    destruct (phone_pattern_normalized is_digit_ascii Hp)
      as (g1 & g2 & g3 & E' & D1 & L1 & D2 & L2 & D3 & L3).
    rewrite E in E'. subst p. unfold digits in *.
    rewrite !List.Forall_app, !len_app. repeat split; trivial; lia.
  - intros [D L]. exists {| phone_number := p; name := n |}.
    rewrite UserCreate_validate_text by auto using digits_text.
    rewrite UserCreate_init_accepts; trivial.
    + now rewrite E.
    + now apply digits_accepted.
  - intros u H. apply UserCreate_validate_accepted in H.
    destruct H as (_ & _ & H). apply UserCreate_init_inv in H.
    destruct H as (_ & _ & ->). now rewrite E.
Qed.

End InputProperties.

(** ** The input step at concrete requests *)

Lemma UserCreate_accepts_matching_witness :
  (is_text (lit "홍길동") = true ->
     UserCreate_validate is_sample_unicode_digit (lit "02-345-6789") (lit "홍길동")
     = inl {| phone_number := remove_hyphens (lit "02-345-6789");
              name := lit "홍길동" |}
     /\ ~ In hyphen (remove_hyphens (lit "02-345-6789")))
  /\ (is_text (lit "홍길동") = false ->
      UserCreate_validate is_sample_unicode_digit (lit "02-345-6789") (lit "홍길동")
      = inr [name_unicode]).
Proof.
  apply (@UserCreate_accepts_matching is_sample_unicode_digit
           is_sample_unicode_digit_text (lit "02-345-6789") (lit "홍길동")).
  - apply phone_pattern_by_search. vm_compute. reflexivity.
  - vm_compute. lia.
Defined.

(** The name U+D800 U+D800 has two characters and comes with a phone number
    of the pattern, and the request is refused. *)
Lemma UserCreate_accepts_matching_counterexample :
  phone_pattern is_ascii_digit (lit "010-1234-5678")
  /\ 2 <= len [55296%N; 55296%N] <= 50
  /\ UserCreate_validate is_ascii_digit (lit "010-1234-5678") [55296%N; 55296%N]
     = inr [name_unicode]
  /\ forall u,
       UserCreate_validate is_ascii_digit (lit "010-1234-5678") [55296%N; 55296%N]
       <> inl u.
Proof.
  split; [apply phone_pattern_by_search; vm_compute; reflexivity|].
  split; [vm_compute; lia|]. split; [reflexivity|]. intros u. discriminate.
Qed.

Lemma UserCreate_rejects_mismatch_witness :
  exists rest,
    UserCreate_validate is_ascii_digit (lit "010-1234-56789") (lit "Alice")
    = inr ((if is_text (lit "010-1234-56789")
            then phone_number_error else phone_number_unicode) :: rest).
Proof.
  apply (proj1 (@UserCreate_rejects_mismatch is_ascii_digit is_ascii_digit_ascii)).
  apply not_phone_pattern_by_search. vm_compute. reflexivity.
Defined.

(** The phone number U+D800 is outside the pattern, and its entry is
    [string_unicode], not the pattern mismatch. *)
Lemma UserCreate_rejects_mismatch_counterexample :
  ~ phone_pattern is_ascii_digit [55296%N]
  /\ UserCreate_validate is_ascii_digit [55296%N] (lit "Alice")
     = inr [phone_number_unicode]
  /\ ~ In phone_number_error [phone_number_unicode].
Proof.
  split; [apply not_phone_pattern_by_search; vm_compute; reflexivity|].
  split; [reflexivity|]. intros [H | []]. discriminate.
Qed.

Lemma UserCreate_rejects_name_length_witness :
  exists before,
    UserCreate_validate is_ascii_digit (lit "010-1234-5678") (List.repeat 65%N 51)
    = inr (before
           ++ [if is_text (List.repeat 65%N 51)
               then (if len (List.repeat 65%N 51) <? 2
                     then name_too_short else name_too_long)
               else name_unicode])
    /\ (before = [] \/ before = [phone_number_error]
        \/ before = [phone_number_unicode]).
Proof.
  apply (proj1 (@UserCreate_rejects_name_length is_ascii_digit is_ascii_digit_ascii)).
  right. vm_compute. lia.
Defined.

(** The name U+D800 has one character, and its entry is [string_unicode],
    not [string_too_short]. *)
Lemma UserCreate_rejects_name_length_counterexample :
  len [55296%N] < 2
  /\ UserCreate_validate is_ascii_digit (lit "010-1234-5678") [55296%N]
     = inr [name_unicode]
  /\ ~ In name_too_short [name_unicode].
Proof.
  split; [vm_compute; lia|]. split; [reflexivity|]. intros [H | []]. discriminate.
Qed.

Lemma name_length_is_raw_witness :
  (UserCreate_validate is_ascii_digit (lit "01012345678") (lit " A ")
   = inl {| phone_number := remove_hyphens (lit "01012345678"); name := lit " A " |}
   <-> 2 <= len (lit " A ") <= 50)
  /\ (len (lit " A ") < 2 ->
      UserCreate_validate is_ascii_digit (lit "01012345678") (lit " A ")
      = inr [name_too_short])
  /\ (50 < len (lit " A ") ->
      UserCreate_validate is_ascii_digit (lit "01012345678") (lit " A ")
      = inr [name_too_long]).
Proof.
  apply (proj1 (@name_length_is_raw is_ascii_digit is_ascii_digit_ascii
                  is_ascii_digit_text)).
  - apply phone_pattern_by_search. vm_compute. reflexivity.
  - reflexivity.
Defined.

(** The name made of a space and U+DC00 has two characters and comes with a
    phone number of the pattern, and the request is refused. *)
Lemma name_length_is_raw_counterexample :
  phone_pattern is_ascii_digit (lit "010-1234-5678")
  /\ 2 <= len [32%N; 56320%N] <= 50
  /\ UserCreate_validate is_ascii_digit (lit "010-1234-5678") [32%N; 56320%N]
     = inr [name_unicode]
  /\ forall u,
       UserCreate_validate is_ascii_digit (lit "010-1234-5678") [32%N; 56320%N]
       <> inl u.
Proof.
  split; [apply phone_pattern_by_search; vm_compute; reflexivity|].
  split; [vm_compute; lia|]. split; [reflexivity|]. intros u. discriminate.
Qed.

Lemma unformatted_phone_number_accepted_iff_witness :
  let p := lit "0212345678" in
  let n := lit "홍길동" in
  ((exists u, UserCreate_validate is_ascii_digit p n = inl u)
   <-> digits is_ascii_digit p /\ 9 <= len p <= 12)
  /\ (forall u, UserCreate_validate is_ascii_digit p n = inl u ->
        u = {| phone_number := p; name := n |}).
Proof.
  intros p n.
  apply (@unformatted_phone_number_accepted_iff is_ascii_digit is_ascii_digit_ascii
           is_ascii_digit_text p n).
  - vm_compute. intuition discriminate.
  - vm_compute. lia.
  - reflexivity.
Defined.

Lemma padded_phone_number_rejected_witness :
  (exists rest,
     UserCreate_validate is_ascii_digit (10%N :: lit "010-1234-5678") (lit "Al")
     = inr ((if is_text (10%N :: lit "010-1234-5678")
             then phone_number_error else phone_number_unicode) :: rest))
  /\ (exists rest,
        UserCreate_validate is_ascii_digit (lit "010-1234-5678" ++ [10%N]) (lit "Al")
        = inr ((if is_text (lit "010-1234-5678" ++ [10%N])
                then phone_number_error else phone_number_unicode) :: rest)).
Proof.
  apply (@padded_phone_number_rejected is_ascii_digit (lit "010-1234-5678") 10%N
           (lit "Al")).
  reflexivity.
Defined.

Lemma name_content_is_not_inspected_witness :
  match UserCreate_validate is_ascii_digit (lit "010-1234-5678") (lit "A-1"),
        UserCreate_validate is_ascii_digit (lit "010-1234-5678") (lit "홍길동") with
  | inl u1, inl u2 =>
      phone_number u1 = phone_number u2
      /\ name u1 = lit "A-1" /\ name u2 = lit "홍길동"
  | inr e1, inr e2 => e1 = e2
  | _, _ => False
  end.
Proof.
  apply (@name_content_is_not_inspected is_ascii_digit (lit "010-1234-5678")
           (lit "A-1") (lit "홍길동")); reflexivity.
Defined.
